(** * cadvisor-lite: the versioned API dispatcher and the factory registry

    A shallow embedding of [cmd/internal/api/versions.go] (package [api]) and
    of the container-handler factory registry of package [container], with the
    properties their specification states about them. *)

From Stdlib Require Import ZArith Ascii.
From stdpp Require Import gmap strings list fin_maps.

(** ** Go errors

    An [error] is either a value handed back by a collaborator, of which only
    its identity matters, or the result of [fmt.Errorf]: the format string as
    it stands in the source, with the arguments it is applied to. *)

Inductive error : Type :=
| errorString (msg : string)
| Errorf (format : string) (args : list fmtArg)
with fmtArg : Type :=
| ArgString (s : string)
| ArgStrings (l : list string)
| ArgInt (n : Z)
| ArgError (e : error).

(** [err != nil] *)
Definition isErr (err : option error) : bool :=
  match err with Some _ => true | None => false end.

Module Api.

(** ** Constants of versions.go *)

Definition containersAPI : string := "containers".
Definition subcontainersAPI : string := "subcontainers".
Definition machineAPI : string := "machine".
Definition machineStatsAPI : string := "machinestats".
Definition dockerAPI : string := "docker".
Definition summaryAPI : string := "summary".
Definition statsAPI : string := "stats".
Definition specAPI : string := "spec".
Definition eventsAPI : string := "events".
Definition storageAPI : string := "storage".
Definition attributesAPI : string := "attributes".
Definition versionAPI : string := "version".
Definition psAPI : string := "ps".
Definition customMetricsAPI : string := "appmetrics".

(** ** The revisions

    Each revision after the first of its chain holds its predecessor. *)

Record version1_0 : Type := Build_version1_0 { }.
Record version1_1 : Type := Build_version1_1 { baseVersion1_1 : version1_0 }.
Record version1_2 : Type := Build_version1_2 { baseVersion1_2 : version1_1 }.
Record version1_3 : Type := Build_version1_3 { baseVersion1_3 : version1_2 }.
Record version2_0 : Type := Build_version2_0 { }.
Record version2_1 : Type := Build_version2_1 { baseVersion2_1 : version2_0 }.

Definition newVersion1_1 (v : version1_0) : version1_1 := {| baseVersion1_1 := v |}.
Definition newVersion1_2 (v : version1_1) : version1_2 := {| baseVersion1_2 := v |}.
Definition newVersion1_3 (v : version1_2) : version1_3 := {| baseVersion1_3 := v |}.
Definition newVersion2_0 : version2_0 := Build_version2_0.
Definition newVersion2_1 (v : version2_0) : version2_1 := {| baseVersion2_1 := v |}.

Definition version1_0_SupportedRequestTypes (api : version1_0) : list string :=
  [containersAPI; machineAPI].

Definition version1_1_SupportedRequestTypes (api : version1_1) : list string :=
  version1_0_SupportedRequestTypes (baseVersion1_1 api) ++ [subcontainersAPI].

Definition version1_2_SupportedRequestTypes (api : version1_2) : list string :=
  version1_1_SupportedRequestTypes (baseVersion1_2 api) ++ [dockerAPI].

Definition version1_3_SupportedRequestTypes (api : version1_3) : list string :=
  version1_2_SupportedRequestTypes (baseVersion1_3 api) ++ [eventsAPI].

Definition version2_0_SupportedRequestTypes (api : version2_0) : list string :=
  [versionAPI; attributesAPI; eventsAPI; machineAPI; summaryAPI; statsAPI;
   specAPI; storageAPI; psAPI; customMetricsAPI].

Definition version2_1_SupportedRequestTypes (api : version2_1) : list string :=
  [machineStatsAPI] ++ version2_0_SupportedRequestTypes (baseVersion2_1 api).

(** ** What versions.go imports

    The data types of packages [info/v1], [info/v2], [events] and [net/http]
    are not part of the sources at hand; the handlers only move their values
    around and read the fields listed here. Pointers to such values stand
    for the values. *)

Class InfoTypes : Type := {
  MachineInfo : Type;
  ContainerInfoRequest : Type;
  ContainerSpec : Type;
  ContainerStats : Type;
  ContainerInfo : Type;
  Name : ContainerInfo → string;
  Aliases : ContainerInfo → list string;
  Namespace : ContainerInfo → string;
  Spec : ContainerInfo → ContainerSpec;
  Stats : ContainerInfo → list ContainerStats;
  Event : Type;
  EventFilter : Type;
  EventChannel : Type;
  DeprecatedContainerStats : Type;
  V2ContainerSpec : Type;
  V2ContainerStats : Type;
  MachineStats : Type;
  ReadCloser : Type;
  Request : Type;
  Body : Request → ReadCloser;
  (** [r.URL.Query()], a [url.Values], that is [map[string][]string] *)
  URL_Query : Request → gmap string (list string);
}.

Section Handlers.
Context `{InfoTypes}.

(** [events.Request]: the handler sets its [ContainerName]. *)
Record EventsRequest : Type := {
  ContainerName : string;
  Filter : EventFilter;
}.

(** [v2.RequestOptions]. [Count] is a Go [int]; [MaxAge] is a
    [*time.Duration], a number of nanoseconds behind a pointer that may be
    nil. *)
Record RequestOptions : Type := {
  IdType : string;
  Count : Z;
  Recursive : bool;
  MaxAge : option Z;
}.

(** [v2.ContainerInfo], built by the v2.1 stats handler. *)
Record V2ContainerInfo : Type := {
  V2Spec : V2ContainerSpec;
  V2Stats : list V2ContainerStats;
}.

(** The values the handlers pass to [writeResult] (an [interface{}] there). *)
Inductive Payload : Type :=
| OfMachineInfo (x : MachineInfo)
| OfContainerInfo (x : ContainerInfo)
| OfContainerInfos (x : list ContainerInfo)
| OfContainerMap (x : gmap string ContainerInfo)
| OfEvents (x : list Event)
| OfDeprecatedStats (x : gmap string (list DeprecatedContainerStats))
| OfV2ContainerInfos (x : gmap string V2ContainerInfo)
| OfMachineStats (x : list MachineStats).

(** [manager.Manager], the collaborator behind every handler: each method
    answers with the pair Go returns, value and error. *)
Record Manager : Type := {
  GetMachineInfo : MachineInfo * option error;
  GetContainerInfo : string → ContainerInfoRequest → ContainerInfo * option error;
  SubcontainersInfo : string → ContainerInfoRequest → list ContainerInfo * option error;
  AllDockerContainers : ContainerInfoRequest → gmap string ContainerInfo * option error;
  DockerContainer : string → ContainerInfoRequest → ContainerInfo * option error;
  GetPastEvents : EventsRequest → list Event * option error;
  WatchForEvents : EventsRequest → EventChannel * option error;
  GetRequestedContainersInfo :
    string → RequestOptions → gmap string ContainerInfo * option error;
}.

(** The calls a handler makes on the Manager, in the order it makes them. *)
Inductive ManagerCall : Type :=
| CallGetMachineInfo
| CallGetContainerInfo (containerName : string) (query : ContainerInfoRequest)
| CallSubcontainersInfo (containerName : string) (query : ContainerInfoRequest)
| CallAllDockerContainers (query : ContainerInfoRequest)
| CallDockerContainer (containerName : string) (query : ContainerInfoRequest)
| CallGetPastEvents (query : EventsRequest)
| CallWatchForEvents (query : EventsRequest)
| CallGetRequestedContainersInfo (containerName : string) (opt : RequestOptions).

(** Functions of the repository that versions.go calls and that live in files
    not at hand (handler.go of package [api], the conversions of [info/v2]),
    the three identifier constants of [info/v2], and the functions of the Go
    standard library it uses. *)
Class Helpers : Type := {
  (** [http.ResponseWriter]: what a handler has written so far *)
  ResponseWriter : Type;
  getContainerName : list string → string;
  getContainerInfoRequest : ReadCloser → ContainerInfoRequest * option error;
  getEventRequest : Request → EventsRequest * bool * option error;
  writeResult : Payload → ResponseWriter → ResponseWriter * option error;
  streamResults :
    EventChannel → ResponseWriter → Request → Manager → ResponseWriter * option error;
  DeprecatedStatsFromV1 : ContainerInfo → list DeprecatedContainerStats;
  ContainerSpecFromV1 : ContainerSpec → list string → string → V2ContainerSpec;
  ContainerStatsFromV1 :
    string → ContainerSpec → list ContainerStats → list V2ContainerStats;
  (** applied to [cont["/"]], which is nil when the key is missing *)
  MachineStatsFromV1 : option ContainerInfo → list MachineStats;
  TypeName : string;
  TypeDocker : string;
  TypePodman : string;
  path_Join : list string → string;
  strconv_Atoi : string → Z * option error;
  time_ParseDuration : string → Z * option error;
}.

Context `{Helpers}.

(** ** The world a handler runs in

    A handler writes to the response writer [w] it is given, calls the
    Manager, and logs through klog; the three are threaded as state. Of klog
    only [klog.Errorf] is kept, the verbose [klog.V(4)] lines are not. *)

Record World : Type := {
  w : ResponseWriter;
  managerCalls : list ManagerCall;
  klogErrors : list error;
}.

Definition Handler (A : Type) : Type := World → A * World.

#[export] Instance Handler_ret : MRet Handler := λ A a world, (a, world).

#[export] Instance Handler_bind : MBind Handler :=
  λ A B k c world, let '(a, world') := c world in k a world'.

(** A call on the Manager: its answer, and the call on record. *)
Definition call {A : Type} (c : ManagerCall) (answer : A) : Handler A :=
  λ world, (answer, {| w := w world;
                       managerCalls := managerCalls world ++ [c];
                       klogErrors := klogErrors world |}).

(** [writeResult(res, w)] *)
Definition write (res : Payload) : Handler (option error) :=
  λ world, let '(w', err) := writeResult res (w world) in
           (err, {| w := w'; managerCalls := managerCalls world;
                    klogErrors := klogErrors world |}).

(** [streamResults(eventChannel, w, r, m)] *)
Definition stream (eventChannel : EventChannel) (r : Request) (m : Manager)
  : Handler (option error) :=
  λ world, let '(w', err) := streamResults eventChannel (w world) r m in
           (err, {| w := w'; managerCalls := managerCalls world;
                    klogErrors := klogErrors world |}).

(** [klog.Errorf(...)] *)
Definition klog_Errorf (e : error) : Handler unit :=
  λ world, (tt, {| w := w world; managerCalls := managerCalls world;
                   klogErrors := klogErrors world ++ [e] |}).

(** ** GetRequestOptions *)

(** [url.Values.Get]: the first value of the key, the empty string when the
    key is missing or has no value. *)
Definition Get (v : gmap string (list string)) (key : string) : string :=
  match v !! key with
  | Some (s :: _) => s
  | _ => ""
  end.

Definition setIdType (s : string) (opt : RequestOptions) : RequestOptions :=
  {| IdType := s; Count := Count opt; Recursive := Recursive opt; MaxAge := MaxAge opt |}.
Definition setCount (n : Z) (opt : RequestOptions) : RequestOptions :=
  {| IdType := IdType opt; Count := n; Recursive := Recursive opt; MaxAge := MaxAge opt |}.
Definition setRecursive (b : bool) (opt : RequestOptions) : RequestOptions :=
  {| IdType := IdType opt; Count := Count opt; Recursive := b; MaxAge := MaxAge opt |}.
Definition setMaxAge (d : option Z) (opt : RequestOptions) : RequestOptions :=
  {| IdType := IdType opt; Count := Count opt; Recursive := Recursive opt; MaxAge := d |}.

(** Each [if] block of the function either goes on with the options as it
    leaves them ([inl]) or returns its error at once ([inr]), together with
    the options as they were when the block was entered. *)
Definition GetRequestOptions (r : Request) : RequestOptions * option error :=
  let supportedTypes : gmap string bool :=
    <[TypePodman := true]> (<[TypeDocker := true]> (<[TypeName := true]> ∅)) in
  let opt := {| IdType := TypeName; Count := 64; Recursive := false; MaxAge := None |} in
  let idType := Get (URL_Query r) "type" in
  match
    (if negb (String.length idType =? 0) then
       if negb (default false (supportedTypes !! idType)) then
         inr (Errorf "unknown 'type' %q" [ArgString idType])
       else inl (setIdType idType opt)
     else inl opt)
  with
  | inr err => (opt, Some err)
  | inl opt =>
    let count := Get (URL_Query r) "count" in
    match
      (if negb (String.length count =? 0) then
         let '(n, err) := strconv_Atoi count in
         if isErr err then
           inr (Errorf "failed to parse 'count' option: %v" [ArgString count])
         else if (n <? -1)%Z then
           inr (Errorf "invalid 'count' option: only -1 and larger values allowed, not %d"
                       [ArgInt n])
         else inl (setCount n opt)
       else inl opt)
    with
    | inr err => (opt, Some err)
    | inl opt =>
      let recursive := Get (URL_Query r) "recursive" in
      let opt := if String.eqb recursive "true" then setRecursive true opt else opt in
      let maxAgeString := Get (URL_Query r) "max_age" in
      match
        (if 0 <? String.length maxAgeString then
           match time_ParseDuration maxAgeString with
           | (_, Some err) =>
               inr (Errorf "failed to parse 'max_age' option: %v" [ArgError err])
           | (maxAge, None) => inl (setMaxAge (Some maxAge) opt)
           end
         else inl opt)
      with
      | inr err => (opt, Some err)
      | inl opt => (opt, None)
      end
    end
  end.

(** ** The capability every revision implements

    [HandleRequest(requestType, request, m, w, r)]: the writer [w] is the one
    of the world the handler is run in; the result is the error returned. *)

Class ApiVersion (V : Type) : Type := {
  Version : V → string;
  SupportedRequestTypes : V → list string;
  HandleRequest : V → string → list string → Manager → Request → Handler (option error);
}.

(** ** API v1.0 *)

Definition version1_0_Version (api : version1_0) : string := "v1.0".

Definition version1_0_HandleRequest (api : version1_0) (requestType : string)
    (request : list string) (m : Manager) (r : Request) : Handler (option error) :=
  if String.eqb requestType machineAPI then
    '(machineInfo, err) ← call CallGetMachineInfo (GetMachineInfo m);
    if err is Some e then mret (Some e) else
    err ← write (OfMachineInfo machineInfo);
    if err is Some e then mret (Some e) else
    mret None
  else if String.eqb requestType containersAPI then
    let containerName := getContainerName request in
    let '(query, err) := getContainerInfoRequest (Body r) in
    if err is Some e then mret (Some e) else
    '(cont, err) ← call (CallGetContainerInfo containerName query)
                        (GetContainerInfo m containerName query);
    if err is Some e then
      mret (Some (Errorf "failed to get container %q with error: %s"
                         [ArgString containerName; ArgError e]))
    else
    err ← write (OfContainerInfo cont);
    if err is Some e then mret (Some e) else
    mret None
  else
    mret (Some (Errorf "unknown request type %q" [ArgString requestType])).

(** ** API v1.1 *)

Definition version1_1_Version (api : version1_1) : string := "v1.1".

Definition version1_1_HandleRequest (api : version1_1) (requestType : string)
    (request : list string) (m : Manager) (r : Request) : Handler (option error) :=
  if String.eqb requestType subcontainersAPI then
    let containerName := getContainerName request in
    let '(query, err) := getContainerInfoRequest (Body r) in
    if err is Some e then mret (Some e) else
    '(containers, err) ← call (CallSubcontainersInfo containerName query)
                              (SubcontainersInfo m containerName query);
    if err is Some e then
      mret (Some (Errorf "failed to get subcontainers for container %q with error: %s"
                         [ArgString containerName; ArgError e]))
    else
    err ← write (OfContainerInfos containers);
    if err is Some e then mret (Some e) else
    mret None
  else
    version1_0_HandleRequest (baseVersion1_1 api) requestType request m r.

(** ** API v1.2 *)

Definition version1_2_Version (api : version1_2) : string := "v1.2".

Definition version1_2_HandleRequest (api : version1_2) (requestType : string)
    (request : list string) (m : Manager) (r : Request) : Handler (option error) :=
  if String.eqb requestType dockerAPI then
    let '(query, err) := getContainerInfoRequest (Body r) in
    if err is Some e then mret (Some e) else
    (* map requests for "docker/" to "docker" *)
    let request :=
      if (length request =? 1) && (String.length (nth 0 request "") =? 0)
      then take 0 request else request in
    match length request with
    | 0 =>
      (* Get all Docker containers. *)
      '(containers, err) ← call (CallAllDockerContainers query)
                                (AllDockerContainers m query);
      if err is Some e then
        mret (Some (Errorf "failed to get all Docker containers with error: %v"
                           [ArgError e]))
      else
      err ← write (OfContainerMap containers);
      if err is Some e then mret (Some e) else
      mret None
    | 1 =>
      (* Get one Docker container. *)
      '(cont, err) ← call (CallDockerContainer (nth 0 request "") query)
                          (DockerContainer m (nth 0 request "") query);
      if err is Some e then
        mret (Some (Errorf "failed to get Docker container %q with error: %v"
                           [ArgString (nth 0 request ""); ArgError e]))
      else
      let containers : gmap string ContainerInfo := {[ Name cont := cont ]} in
      err ← write (OfContainerMap containers);
      if err is Some e then mret (Some e) else
      mret None
    | _ =>
      mret (Some (Errorf "unknown request for Docker container %v" [ArgStrings request]))
    end
  else
    version1_1_HandleRequest (baseVersion1_2 api) requestType request m r.

(** ** API v1.3 *)

Definition version1_3_Version (api : version1_3) : string := "v1.3".

Definition handleEventRequest (request : list string) (m : Manager) (r : Request)
  : Handler (option error) :=
  let '(query, stream_, err) := getEventRequest r in
  if err is Some e then mret (Some e) else
  let query := {| ContainerName := path_Join ["/"; getContainerName request];
                  Filter := Filter query |} in
  if negb stream_ then
    '(pastEvents, err) ← call (CallGetPastEvents query) (GetPastEvents m query);
    if err is Some e then mret (Some e) else
    write (OfEvents pastEvents)
  else
    '(eventChannel, err) ← call (CallWatchForEvents query) (WatchForEvents m query);
    if err is Some e then mret (Some e) else
    stream eventChannel r m.

Definition version1_3_HandleRequest (api : version1_3) (requestType : string)
    (request : list string) (m : Manager) (r : Request) : Handler (option error) :=
  if String.eqb requestType eventsAPI then
    handleEventRequest request m r
  else
    version1_2_HandleRequest (baseVersion1_3 api) requestType request m r.

(** ** API v2.0 *)

Definition version2_0_Version (api : version2_0) : string := "v2.0".

(** The loop over [infos] fills [contStats] key by key; the keys of a map are
    distinct, so the order of the iteration does not show in the result. *)
Definition version2_0_handleStatsAPI (api : version2_0) (request : list string)
    (opt : RequestOptions) (m : Manager) : Handler (option error) :=
  let name := getContainerName request in
  '(infos, err) ← call (CallGetRequestedContainersInfo name opt)
                       (GetRequestedContainersInfo m name opt);
  let rest : Handler (option error) :=
    let contStats : gmap string (list DeprecatedContainerStats) :=
      map_fold (λ name cinfo contStats, <[name := DeprecatedStatsFromV1 cinfo]> contStats)
               ∅ infos in
    write (OfDeprecatedStats contStats) in
  if err is Some e then
    if size infos =? 0 then mret (Some e)
    else
      _ ← klog_Errorf (Errorf "Error calling GetRequestedContainersInfo: %v" [ArgError e]);
      rest
  else rest.

Definition version2_0_HandleRequest (api : version2_0) (requestType : string)
    (request : list string) (m : Manager) (r : Request) : Handler (option error) :=
  let '(opt, err) := GetRequestOptions r in
  if err is Some e then mret (Some e) else
  if String.eqb requestType statsAPI then
    version2_0_handleStatsAPI api request opt m
  else
    mret (Some (Errorf "unknown request type %q" [ArgString requestType])).

(** ** API v2.1 *)

Definition version2_1_Version (api : version2_1) : string := "v2.1".

(** The body of the loop of the stats case: the root cgroup is skipped, any
    other container is converted and stored under its name. *)
Definition statsLoopBody (name : string) (cont : ContainerInfo)
    (contStats : gmap string V2ContainerInfo) : gmap string V2ContainerInfo :=
  if String.eqb name "/" then
    (* Root cgroup stats should be exposed as machine stats *)
    contStats
  else
    <[name := {| V2Spec := ContainerSpecFromV1 (Spec cont) (Aliases cont) (Namespace cont);
                 V2Stats := ContainerStatsFromV1 name (Spec cont) (Stats cont) |}]> contStats.

Definition version2_1_HandleRequest (api : version2_1) (requestType : string)
    (request : list string) (m : Manager) (r : Request) : Handler (option error) :=
  (* Get the query request. *)
  let '(opt, err) := GetRequestOptions r in
  if err is Some e then mret (Some e) else
  if String.eqb requestType machineStatsAPI then
    '(cont, err) ← call (CallGetRequestedContainersInfo "/" opt)
                        (GetRequestedContainersInfo m "/" opt);
    let rest : Handler (option error) :=
      write (OfMachineStats (MachineStatsFromV1 (cont !! "/"))) in
    if err is Some e then
      if size cont =? 0 then mret (Some e)
      else
        _ ← klog_Errorf (Errorf "Error calling GetRequestedContainersInfo: %v" [ArgError e]);
        rest
    else rest
  else if String.eqb requestType statsAPI then
    let name := getContainerName request in
    '(conts, err) ← call (CallGetRequestedContainersInfo name opt)
                         (GetRequestedContainersInfo m name opt);
    let rest : Handler (option error) :=
      let contStats : gmap string V2ContainerInfo := map_fold statsLoopBody ∅ conts in
      write (OfV2ContainerInfos contStats) in
    if err is Some e then
      if size conts =? 0 then mret (Some e)
      else
        _ ← klog_Errorf (Errorf "Error calling GetRequestedContainersInfo: %v" [ArgError e]);
        rest
    else rest
  else
    version2_0_HandleRequest (baseVersion2_1 api) requestType request m r.

(** ** Vocabulary for the properties *)

(** The identifier types [GetRequestOptions] lets through. *)
Definition allowedTypes : list string := [TypeName; TypeDocker; TypePodman].

(** The world after a call on the Manager, and after a [klog.Errorf]. *)
Definition asked (c : ManagerCall) (world : World) : World := (call c () world).2.
Definition logged (e : error) (world : World) : World := (klog_Errorf e world).2.

(** What the v2.1 stats loop stores for a container it does not skip. *)
Definition converted (name : string) (cont : ContainerInfo) : V2ContainerInfo :=
  {| V2Spec := ContainerSpecFromV1 (Spec cont) (Aliases cont) (Namespace cont);
     V2Stats := ContainerStatsFromV1 name (Spec cont) (Stats cont) |}.

(** ** The revisions as implementations of the capability *)

#[export] Instance version1_0_ApiVersion : ApiVersion version1_0 :=
  {| Version := version1_0_Version;
     SupportedRequestTypes := version1_0_SupportedRequestTypes;
     HandleRequest := version1_0_HandleRequest |}.
#[export] Instance version1_1_ApiVersion : ApiVersion version1_1 :=
  {| Version := version1_1_Version;
     SupportedRequestTypes := version1_1_SupportedRequestTypes;
     HandleRequest := version1_1_HandleRequest |}.
#[export] Instance version1_2_ApiVersion : ApiVersion version1_2 :=
  {| Version := version1_2_Version;
     SupportedRequestTypes := version1_2_SupportedRequestTypes;
     HandleRequest := version1_2_HandleRequest |}.
#[export] Instance version1_3_ApiVersion : ApiVersion version1_3 :=
  {| Version := version1_3_Version;
     SupportedRequestTypes := version1_3_SupportedRequestTypes;
     HandleRequest := version1_3_HandleRequest |}.
#[export] Instance version2_0_ApiVersion : ApiVersion version2_0 :=
  {| Version := version2_0_Version;
     SupportedRequestTypes := version2_0_SupportedRequestTypes;
     HandleRequest := version2_0_HandleRequest |}.
#[export] Instance version2_1_ApiVersion : ApiVersion version2_1 :=
  {| Version := version2_1_Version;
     SupportedRequestTypes := version2_1_SupportedRequestTypes;
     HandleRequest := version2_1_HandleRequest |}.

(** A revision of any of the six types, as the elements of [[]ApiVersion]. *)
Record AnyApiVersion : Type := anyApiVersion {
  revision : Type;
  revision_ApiVersion : ApiVersion revision;
  this : revision;
}.
Arguments anyApiVersion {_ _} _.

(** Gets all supported API versions. *)
Definition getAPIVersions : list AnyApiVersion :=
  let v1_0 := Build_version1_0 in
  let v1_1 := newVersion1_1 v1_0 in
  let v1_2 := newVersion1_2 v1_1 in
  let v1_3 := newVersion1_3 v1_2 in
  let v2_0 := newVersion2_0 in
  let v2_1 := newVersion2_1 v2_0 in
  [anyApiVersion v1_0; anyApiVersion v1_1; anyApiVersion v1_2; anyApiVersion v1_3;
   anyApiVersion v2_0; anyApiVersion v2_1].

End Handlers.

End Api.

Module Container.

(** ** The factory registry of package [container]

    The file that implements the registry is not among the sources; its test
    file is. The registry below follows sections 3, 4.1 and 7 of the
    specification, under the names the tests call it by. *)

(** Modelled from the spec: the Factory capability of section 3,
    [CanHandleAndAccept(name) → (canHandle, canAccept, err)],
    [NewContainerHandler(name, allowedEnvVars, isHostNamespace) → (Handler, err)],
    [String()] identity and [DebugInfo()]. *)
Module ContainerHandlerFactory.
Record t (ContainerHandler : Type) : Type := {
  String : string;
  CanHandleAndAccept : string → bool * bool * option error;
  NewContainerHandler :
    string → list string → bool → option ContainerHandler * option error;
  DebugInfo : gmap string (list string);
}.
Arguments String {_} _.
Arguments CanHandleAndAccept {_} _ _.
Arguments NewContainerHandler {_} _ _ _ _.
Arguments DebugInfo {_} _.
End ContainerHandlerFactory.

(** Modelled from the spec: the failures of dispatch in section 7, (b) no
    handler found, naming the container, and (c) construction failed, the
    cause tagged with container name and factory identity; and the error of
    a [CanHandleAndAccept] that aborts the dispatch. *)
Inductive DispatchError : Type :=
| NoHandlerFound (name : string)
| HandlerConstructionFailed (name factory : string) (cause : error)
| CanHandleAndAcceptFailed (cause : error).

(** Modelled from the spec: the watch sources that section 3 names. The
    registry itself is stated for any countable type of sources. *)
Module watcher.
Inductive ContainerWatchSource : Type := Raw | Docker | Podman.

#[global] Instance ContainerWatchSource_eq_dec : EqDecision ContainerWatchSource.
Proof. solve_decision. Defined.

#[global] Instance ContainerWatchSource_countable : Countable ContainerWatchSource.
Proof.
  refine (inj_countable'
            (λ s, match s with Raw => 0 | Docker => 1 | Podman => 2 end)
            (λ n, match n with 0 => Raw | 1 => Docker | _ => Podman end) _).
  by intros [].
Defined.
End watcher.

Section Registry.
Context {ContainerWatchSource : Type} `{Countable ContainerWatchSource}.
Context {ContainerHandler : Type}.

Abbreviation Factory := (ContainerHandlerFactory.t ContainerHandler).

(** The calls dispatch makes on factories, in the order it makes them. *)
Inductive FactoryCall : Type :=
| AskCanHandleAndAccept (factory : Factory) (name : string)
| AskNewContainerHandler (factory : Factory) (name : string)
    (allowedEnvVars : list string) (isHostNamespace : bool).

(** [factories[watchType]]: the list registered for the source, empty when
    nothing was registered for it. *)
Definition registered (watchType : ContainerWatchSource)
    (factories : gmap ContainerWatchSource (list Factory)) : list Factory :=
  default [] (factories !! watchType).

(** Modelled from the spec: [Register(factory, watchSources)] "appends to
    each listed source's list; no de-duplication". The registry, process-wide
    state behind a lock in the program, is passed in and handed back. *)
Definition RegisterContainerHandlerFactory (factory : Factory)
    (watchTypes : list ContainerWatchSource)
    (factories : gmap ContainerWatchSource (list Factory))
  : gmap ContainerWatchSource (list Factory) :=
  foldl (λ factories watchType,
           <[watchType := registered watchType factories ++ [factory]]> factories)
        factories watchTypes.

(** Modelled from the spec: [Clear()] "empties all lists". *)
Definition ClearContainerHandlerFactories
    (factories : gmap ContainerWatchSource (list Factory))
  : gmap ContainerWatchSource (list Factory) := ∅.

Definition isRaw (factory : Factory) : Prop :=
  ContainerHandlerFactory.String factory = "raw".

#[export] Instance isRaw_dec (factory : Factory) : Decision (isRaw factory) :=
  decide (ContainerHandlerFactory.String factory = "raw").

(** Modelled from the spec: [ReorderedList(source)] "returns the registered
    list with the factory identified as "raw" moved to the end; if none is so
    identified, order is unchanged"; factories sharing that identity "would
    both anchor last" (section 9). *)
Definition GetReorderedFactoryList (watchType : ContainerWatchSource)
    (factories : gmap ContainerWatchSource (list Factory)) : list Factory :=
  let all := registered watchType factories in
  filter (λ factory, ¬ isRaw factory) all ++ filter isRaw all.

(** Modelled from the spec: the walk of [Dispatch] over the reordered list,
    "returns the first factory with canHandle=true. No match → fails with a
    not-found error naming the container. Match with canAccept=false →
    returns (no handler, accepted=false, no error). Match with canAccept=true
    → invokes construction; any error is tagged with container name and
    factory identity. A CanHandleAndAccept error aborts dispatch immediately
    (fail-fast, no fallthrough to later factories)." The result comes with
    the calls made. *)
Fixpoint dispatch (name : string) (allowedEnvVars : list string)
    (isHostNamespace : bool) (reordered : list Factory)
  : (option ContainerHandler * bool * option DispatchError) * list FactoryCall :=
  match reordered with
  | [] => ((None, false, Some (NoHandlerFound name)), [])
  | factory :: rest =>
    let asked := AskCanHandleAndAccept factory name in
    match ContainerHandlerFactory.CanHandleAndAccept factory name with
    | (_, _, Some err) =>
        ((None, false, Some (CanHandleAndAcceptFailed err)), [asked])
    | (true, false, None) =>
        ((None, false, None), [asked])
    | (true, true, None) =>
        let built := AskNewContainerHandler factory name allowedEnvVars isHostNamespace in
        match ContainerHandlerFactory.NewContainerHandler
                factory name allowedEnvVars isHostNamespace with
        | (handler, Some err) =>
            ((handler, true,
              Some (HandlerConstructionFailed
                      name (ContainerHandlerFactory.String factory) err)),
             [asked; built])
        | (handler, None) => ((handler, true, None), [asked; built])
        end
    | (false, _, None) =>
        let '(result, calls) := dispatch name allowedEnvVars isHostNamespace rest in
        (result, asked :: calls)
    end
  end.

(** Modelled from the spec:
    [Dispatch(name, source, allowedEnvVars, isHostNamespace)] "obtains the
    reordered list" and walks it. *)
Definition NewContainerHandler (name : string) (watchType : ContainerWatchSource)
    (allowedEnvVars : list string) (isHostNamespace : bool)
    (factories : gmap ContainerWatchSource (list Factory))
  : (option ContainerHandler * bool * option DispatchError) * list FactoryCall :=
  dispatch name allowedEnvVars isHostNamespace
           (GetReorderedFactoryList watchType factories).

(** A sequence of [Register] calls, run from left to right. *)
Definition registerAll (calls : list (Factory * list ContainerWatchSource))
    (factories : gmap ContainerWatchSource (list Factory))
  : gmap ContainerWatchSource (list Factory) :=
  foldl (λ factories c, RegisterContainerHandlerFactory c.1 c.2 factories)
        factories calls.

(** How often the watch types of a [Register] call name a watch source. *)
Definition occurrences (watchType : ContainerWatchSource)
    (watchTypes : list ContainerWatchSource) : nat :=
  length (filter (λ listed, listed = watchType) watchTypes).

(** A factory reports [(canHandle, canAccept)] for a name when its
    [CanHandleAndAccept] returns them with a nil error. *)
Definition reports (factory : Factory) (name : string) (canHandle canAccept : bool)
  : Prop :=
  ContainerHandlerFactory.CanHandleAndAccept factory name = (canHandle, canAccept, None).

Definition declines (name : string) (factory : Factory) : Prop :=
  ∃ canAccept, reports factory name false canAccept.

End Registry.

End Container.

(** ** Test doubles

    Concrete collaborators on which the definitions above can be run: the
    mock factory of the registry's test file, and stand-ins for the data types
    and helpers that versions.go imports. *)

Module Doubles.
Import Api Container.

(** *** For the registry: the mock of the test file *)

Record mockContainerHandlerFactory : Type := {
  mockName : string;
  CanHandleValue : bool;
  CanAcceptValue : bool;
  (** what [On("NewContainerHandler", name).Return(...)] was given *)
  mockReturn : option string * option error;
}.

(** The methods of the mock; a handler is stood for by a string. *)
Definition mockFactory (f : mockContainerHandlerFactory)
  : ContainerHandlerFactory.t string :=
  {| ContainerHandlerFactory.String := mockName f;
     ContainerHandlerFactory.CanHandleAndAccept :=
       λ name, (CanHandleValue f, CanAcceptValue f, None);
     ContainerHandlerFactory.NewContainerHandler :=
       λ name metadataEnvAllowList isHostNamespace, mockReturn f;
     ContainerHandlerFactory.DebugInfo := ∅ |}.

Definition testContainerName : string := "/test".
Definition testMetadataEnvAllowList : list string := [].
Definition mockContainer : string := "mockContainer".

Definition allwaysNo : ContainerHandlerFactory.t string :=
  mockFactory {| mockName := "no"; CanHandleValue := false; CanAcceptValue := true;
                 mockReturn := (None, None) |}.
Definition allwaysYes : ContainerHandlerFactory.t string :=
  mockFactory {| mockName := "yes"; CanHandleValue := true; CanAcceptValue := true;
                 mockReturn := (Some mockContainer, None) |}.
Definition cannotAccept : ContainerHandlerFactory.t string :=
  mockFactory {| mockName := "no"; CanHandleValue := true; CanAcceptValue := false;
                 mockReturn := (None, None) |}.
Definition named (name : string) : ContainerHandlerFactory.t string :=
  mockFactory {| mockName := name; CanHandleValue := false; CanAcceptValue := false;
                 mockReturn := (None, None) |}.

(** A factory whose [CanHandleAndAccept] fails. *)
Definition broken : ContainerHandlerFactory.t string :=
  {| ContainerHandlerFactory.String := "broken";
     ContainerHandlerFactory.CanHandleAndAccept :=
       λ name, (false, false, Some (errorString "cannot inspect"));
     ContainerHandlerFactory.NewContainerHandler :=
       λ name metadataEnvAllowList isHostNamespace, (None, None);
     ContainerHandlerFactory.DebugInfo := ∅ |}.

(** The two factories of the last example of section 8: one that handles
    every name, identified as "raw", and one that handles the names under
    [/docker] only. *)
Definition rawAll : ContainerHandlerFactory.t string :=
  mockFactory {| mockName := "raw"; CanHandleValue := true; CanAcceptValue := true;
                 mockReturn := (Some "raw handler", None) |}.
Definition dockerOnly : ContainerHandlerFactory.t string :=
  {| ContainerHandlerFactory.String := "docker";
     ContainerHandlerFactory.CanHandleAndAccept :=
       λ name, (String.prefix "/docker" name, true, None);
     ContainerHandlerFactory.NewContainerHandler :=
       λ name metadataEnvAllowList isHostNamespace, (Some "docker handler", None);
     ContainerHandlerFactory.DebugInfo := ∅ |}.

Definition noFactories
  : gmap watcher.ContainerWatchSource (list (ContainerHandlerFactory.t string)) := ∅.

Abbreviation Raw := watcher.Raw.
Abbreviation ask := (λ factory, AskCanHandleAndAccept factory testContainerName).

(** *** For the API: data types *)

Record containerInfo : Type := {
  ciName : string;
  ciAliases : list string;
  ciNamespace : string;
  ciSpec : string;
  ciStats : list nat;
}.

Record request : Type := {
  body : string;
  query : gmap string (list string);
}.

Definition infoTypes : InfoTypes :=
  {| MachineInfo := string;
     ContainerInfoRequest := nat;
     ContainerSpec := string;
     ContainerStats := nat;
     ContainerInfo := containerInfo;
     Name := ciName;
     Aliases := ciAliases;
     Namespace := ciNamespace;
     Spec := ciSpec;
     Stats := ciStats;
     Event := string;
     EventFilter := unit;
     EventChannel := list string;
     DeprecatedContainerStats := nat;
     V2ContainerSpec := string;
     V2ContainerStats := nat;
     MachineStats := nat;
     ReadCloser := string;
     Request := request;
     Body := body;
     URL_Query := query |}.

#[local] Existing Instance infoTypes.

(** *** For the API: [strconv.Atoi] on a platform whose [int] has 64 bits

    An optional sign and at least one decimal digit, nothing else; a value
    outside the range of [int] is an error. *)

Definition digit (c : Ascii.ascii) : option Z :=
  let n := Z.of_nat (Ascii.nat_of_ascii c) in
  if ((48 <=? n) && (n <=? 57))%Z then Some (n - 48)%Z else None.

Fixpoint digits (s : string) (acc : Z) : option Z :=
  match s with
  | EmptyString => Some acc
  | String c s' =>
    match digit c with
    | Some d => digits s' (acc * 10 + d)%Z
    | None => None
    end
  end.

Definition Atoi (s : string) : Z * option error :=
  let syntaxError := (0%Z, Some (errorString "invalid syntax")) in
  match s with
  | EmptyString => syntaxError
  | String c rest =>
    let neg := Ascii.eqb c "-"%char in
    let unsigned := if neg || Ascii.eqb c "+"%char then rest else s in
    match unsigned with
    | EmptyString => syntaxError
    | _ =>
      match digits unsigned 0 with
      | None => syntaxError
      | Some un =>
        if negb neg && (2 ^ 63 <=? un)%Z then
          ((2 ^ 63 - 1)%Z, Some (errorString "value out of range"))
        else if neg && (2 ^ 63 <? un)%Z then
          ((- 2 ^ 63)%Z, Some (errorString "value out of range"))
        else ((if neg then - un else un)%Z, None)
      end
    end
  end.

(** A stand-in for [time.ParseDuration] that knows whole seconds only,
    written [<digits>s]. *)
Definition ParseSeconds (s : string) : Z * option error :=
  let n := String.length s in
  if String.eqb (String.substring (n - 1) 1 s) "s" then
    match Atoi (String.substring 0 (n - 1) s) with
    | (secs, None) => ((secs * 1000000000)%Z, None)
    | (_, Some _) => (0%Z, Some (errorString "time: invalid duration"))
    end
  else (0%Z, Some (errorString "time: invalid duration")).

(** *** For the API: helpers

    The writer keeps the payloads written to it, in order. *)

Definition getContainerName_double (request : list string) : string :=
  String.append "/" (String.concat "/" request).

(** Decodes nothing but the empty body and the empty object. *)
Definition getContainerInfoRequest_double (body : string) : nat * option error :=
  if String.eqb body "" || String.eqb body "{}" then (60, None)
  else (0, Some (errorString "unable to decode the json value")).

Definition helpers : @Helpers infoTypes :=
  @Build_Helpers infoTypes
    (* ResponseWriter *) (list (@Payload infoTypes))
    (* getContainerName *) getContainerName_double
    (* getContainerInfoRequest *) getContainerInfoRequest_double
    (* getEventRequest *) (λ r, ({| ContainerName := ""; Filter := tt |}, false, None))
    (* writeResult *) (λ res w, (w ++ [res], None))
    (* streamResults *) (λ eventChannel w r m, (w, None))
    (* DeprecatedStatsFromV1 *) ciStats
    (* ContainerSpecFromV1 *) (λ spec aliases namespace, spec)
    (* ContainerStatsFromV1 *) (λ name spec stats, stats)
    (* MachineStatsFromV1 *) (λ cont, from_option ciStats [] cont)
    (* TypeName *) "name"
    (* TypeDocker *) "docker"
    (* TypePodman *) "podman"
    (* path_Join *) (String.concat "")
    (* strconv_Atoi *) Atoi
    (* time_ParseDuration *) ParseSeconds.

#[local] Existing Instance helpers.

Definition emptyWorld : @World infoTypes helpers :=
  {| w := []; managerCalls := []; klogErrors := [] |}.

Definition rootInfo : containerInfo :=
  {| ciName := "/"; ciAliases := []; ciNamespace := ""; ciSpec := "root"; ciStats := [1; 2] |}.
Definition webInfo : containerInfo :=
  {| ciName := "/web"; ciAliases := ["web"]; ciNamespace := "docker"; ciSpec := "web";
     ciStats := [3] |}.

Definition someContainers : gmap string containerInfo :=
  <["/web" := webInfo]> (<["/" := rootInfo]> ∅).

Definition upstream : error := errorString "partial failure".

(** A Manager that answers every call without error. *)
Definition steadyManager : @Manager infoTypes :=
  {| GetMachineInfo := ("machine", None);
     GetContainerInfo := λ name query, (webInfo, None);
     SubcontainersInfo := λ name query, ([webInfo], None);
     AllDockerContainers := λ query, (someContainers, None);
     DockerContainer := λ name query, (webInfo, None);
     GetPastEvents := λ query, ([], None);
     WatchForEvents := λ query, ([], None);
     GetRequestedContainersInfo := λ name opt, (someContainers, None) |}.

(** A Manager whose [GetRequestedContainersInfo] fails with the given
    containers next to the error. *)
Definition failingManager (infos : gmap string containerInfo) : @Manager infoTypes :=
  {| GetMachineInfo := ("machine", None);
     GetContainerInfo := λ name query, (webInfo, None);
     SubcontainersInfo := λ name query, ([webInfo], None);
     AllDockerContainers := λ query, (someContainers, None);
     DockerContainer := λ name query, (webInfo, None);
     GetPastEvents := λ query, ([], None);
     WatchForEvents := λ query, ([], None);
     GetRequestedContainersInfo := λ name opt, (infos, Some upstream) |}.


(** A request with the given query parameters and an empty body. *)
Definition requestWith (params : list (string * string)) : request :=
  {| body := "";
     query := list_to_map (prod_map id (λ v, [v]) <$> params) |}.

Definition plainRequest : request := requestWith [].

Definition brokenBody : request := {| body := "{"; query := ∅ |}.

Definition defaultOptions : @RequestOptions :=
  {| IdType := "name"; Count := 64; Recursive := false; MaxAge := None |}.

(** The revisions, chained as [getAPIVersions] chains them. *)
Definition v1_0 : version1_0 := Build_version1_0.
Definition v1_1 : version1_1 := newVersion1_1 v1_0.
Definition v1_2 : version1_2 := newVersion1_2 v1_1.
Definition v1_3 : version1_3 := newVersion1_3 v1_2.
Definition v2_0 : version2_0 := newVersion2_0.
Definition v2_1 : version2_1 := newVersion2_1 v2_0.

End Doubles.

(** * Properties of the versioned API dispatcher *)

Module ApiProperties.
Import Api.

(** Closes [x ∉ l] for a literal string and a list of literals. *)
Ltac not_listed :=
  let Hin := fresh "Hin" in
  intros Hin;
  repeat (apply elem_of_cons in Hin as [Hin|Hin]; [discriminate Hin|]);
  by apply elem_of_nil in Hin.

Section Properties.
Context {types : InfoTypes} {helpers : Helpers}.

(** ** Strings and the tests the handlers make on them *)

Lemma eqb_ne (a b : string) : a ≠ b → String.eqb a b = false.
Proof. apply String.eqb_neq. Qed.

Lemma length_eqb_0_spec (s : string) :
  BoolSpec (s = "") (s ≠ "") (String.length s =? 0).
Proof. destruct s; simpl; by constructor. Qed.

Lemma length_ltb_0_spec (s : string) :
  BoolSpec (s ≠ "") (s = "") (0 <? String.length s).
Proof. destruct s; simpl; by constructor. Qed.

Lemma supportedTypes_spec (idType : string) :
  BoolSpec (idType ∈ allowedTypes) (idType ∉ allowedTypes)
    (default false
       ((<[TypePodman := true]> (<[TypeDocker := true]> (<[TypeName := true]> ∅))
         : gmap string bool) !! idType)).
Proof.
  unfold allowedTypes. rewrite !lookup_insert, lookup_empty.
  repeat case_decide; simpl; constructor; subst;
    rewrite ?elem_of_cons, ?not_elem_of_cons, ?elem_of_nil; intuition congruence.
Qed.

(** ** Request options *)

(** C4. With [param k] the value [r.URL.Query().Get(k)], empty when the
    parameter is absent: a [type] outside the allowed identifier types, a
    [count] that [strconv.Atoi] rejects or that is below -1, and a [max_age]
    that [time.ParseDuration] rejects each make [GetRequestOptions] return an
    error, and it returns an error for no other reason. When it returns none,
    the identifier type is the given one, [TypeName] when absent, and lies in
    the allowed set; the count is the parsed number, 64 when absent, and is at
    least -1; recursion is set exactly when [recursive] is the literal
    ["true"]; the maximal age is the parsed duration, unset when absent.
    Recursion is never set by any other value. *)
Theorem GetRequestOptions_spec (r : Request) :
  let param := Get (URL_Query r) in
  let opt := (GetRequestOptions r).1 in
  let err := (GetRequestOptions r).2 in
  let badType := param "type" ≠ "" ∧ param "type" ∉ allowedTypes in
  let badCount :=
    param "count" ≠ "" ∧
    ((strconv_Atoi (param "count")).2 ≠ None
     ∨ ((strconv_Atoi (param "count")).1 < -1)%Z) in
  let badMaxAge :=
    param "max_age" ≠ "" ∧ (time_ParseDuration (param "max_age")).2 ≠ None in
  (badType → err ≠ None) ∧
  (badCount → err ≠ None) ∧
  (badMaxAge → err ≠ None) ∧
  (err ≠ None → badType ∨ badCount ∨ badMaxAge) ∧
  (err = None →
   IdType opt = (if decide (param "type" = "") then TypeName else param "type") ∧
   IdType opt ∈ allowedTypes ∧
   Count opt = (if decide (param "count" = "") then 64%Z
                else (strconv_Atoi (param "count")).1) ∧
   (-1 ≤ Count opt)%Z ∧
   Recursive opt = bool_decide (param "recursive" = "true") ∧
   MaxAge opt = (if decide (param "max_age" = "") then None
                 else Some (time_ParseDuration (param "max_age")).1)) ∧
  (Recursive opt = true → param "recursive" = "true").
Proof.
  intros param opt err badType badCount badMaxAge.
  subst opt err badType badCount badMaxAge. unfold GetRequestOptions.
  fold param.
  assert (TypeName ∈ allowedTypes) as Hname by (unfold allowedTypes; left).
  destruct (length_eqb_0_spec (param "type")) as [Hty|Hty]; simpl;
    [| destruct (supportedTypes_spec (param "type")) as [Hsup|Hsup]; simpl ].
  all: destruct (length_eqb_0_spec (param "count")) as [Hco|Hco]; simpl;
    [| destruct (strconv_Atoi (param "count")) as [n [ea|]]; simpl;
       [| destruct (Z.ltb_spec n (-1)); simpl ] ].
  all: destruct (String.eqb_spec (param "recursive") "true") as [Hre|Hre]; simpl.
  all: destruct (length_ltb_0_spec (param "max_age")) as [Hma|Hma]; simpl;
    [ destruct (time_ParseDuration (param "max_age")) as [d [ed|]]; simpl |].
  all: repeat case_decide; try case_bool_decide.
  all: intuition (try done; try congruence; try lia).
Qed.

(** ** The lists of supported request types *)

Lemma supported_v1_3 (api : version1_3) (requestType : string) :
  requestType ∈ version1_3_SupportedRequestTypes api ↔
  requestType = containersAPI ∨ requestType = machineAPI ∨
  requestType = subcontainersAPI ∨ requestType = dockerAPI ∨
  requestType = eventsAPI.
Proof.
  unfold version1_3_SupportedRequestTypes, version1_2_SupportedRequestTypes,
    version1_1_SupportedRequestTypes, version1_0_SupportedRequestTypes.
  simpl. rewrite !elem_of_cons, elem_of_nil. tauto.
Qed.

Lemma subseteq_snoc (l : list string) (x : string) : l ⊆ l ++ [x].
Proof. intros y Hy. apply elem_of_app. by left. Qed.

(** C5. Along each chain the supported request types only grow:
    [{containers, machine}] is within v1.0's list, v1.1 adds [subcontainers]
    to v1.0's, v1.2 adds [docker] to v1.1's, v1.3 adds [events] to v1.2's,
    and v2.1's list contains v2.0's. *)
Theorem SupportedRequestTypes_monotone (v1_3 : version1_3) (v2_1 : version2_1) :
  let v1_2 := baseVersion1_3 v1_3 in
  let v1_1 := baseVersion1_2 v1_2 in
  let v1_0 := baseVersion1_1 v1_1 in
  let v2_0 := baseVersion2_1 v2_1 in
  [containersAPI; machineAPI] ⊆ version1_0_SupportedRequestTypes v1_0 ∧
  version1_0_SupportedRequestTypes v1_0 ⊆ version1_1_SupportedRequestTypes v1_1 ∧
  version1_1_SupportedRequestTypes v1_1
  = version1_0_SupportedRequestTypes v1_0 ++ [subcontainersAPI] ∧
  version1_1_SupportedRequestTypes v1_1 ⊆ version1_2_SupportedRequestTypes v1_2 ∧
  version1_2_SupportedRequestTypes v1_2
  = version1_1_SupportedRequestTypes v1_1 ++ [dockerAPI] ∧
  version1_2_SupportedRequestTypes v1_2 ⊆ version1_3_SupportedRequestTypes v1_3 ∧
  version1_3_SupportedRequestTypes v1_3
  = version1_2_SupportedRequestTypes v1_2 ++ [eventsAPI] ∧
  version2_0_SupportedRequestTypes v2_0 ⊆ version2_1_SupportedRequestTypes v2_1.
Proof.
  intros v1_2 v1_1 v1_0 v2_0.
  repeat split; try reflexivity; try apply subseteq_snoc.
  intros x Hx. unfold version2_1_SupportedRequestTypes.
  apply elem_of_app. by right.
Qed.

(** ** Delegation *)

Lemma version1_3_falls_through (api : version1_3) (requestType : string)
    (request : list string) (m : Manager) (r : Request) :
  requestType ≠ eventsAPI →
  version1_3_HandleRequest api requestType request m r
  = version1_2_HandleRequest (baseVersion1_3 api) requestType request m r.
Proof. intros Hne. unfold version1_3_HandleRequest. by rewrite (eqb_ne _ _ Hne). Qed.

Lemma version1_2_falls_through (api : version1_2) (requestType : string)
    (request : list string) (m : Manager) (r : Request) :
  requestType ≠ dockerAPI →
  version1_2_HandleRequest api requestType request m r
  = version1_1_HandleRequest (baseVersion1_2 api) requestType request m r.
Proof. intros Hne. unfold version1_2_HandleRequest. by rewrite (eqb_ne _ _ Hne). Qed.

Lemma version1_1_falls_through (api : version1_1) (requestType : string)
    (request : list string) (m : Manager) (r : Request) :
  requestType ≠ subcontainersAPI →
  version1_1_HandleRequest api requestType request m r
  = version1_0_HandleRequest (baseVersion1_1 api) requestType request m r.
Proof. intros Hne. unfold version1_1_HandleRequest. by rewrite (eqb_ne _ _ Hne). Qed.

Lemma version1_0_unknown (api : version1_0) (requestType : string)
    (request : list string) (m : Manager) (r : Request) (world : World) :
  requestType ≠ machineAPI → requestType ≠ containersAPI →
  version1_0_HandleRequest api requestType request m r world
  = (Some (Errorf "unknown request type %q" [ArgString requestType]), world).
Proof.
  intros Hmachine Hcontainers. unfold version1_0_HandleRequest.
  by rewrite (eqb_ne _ _ Hmachine), (eqb_ne _ _ Hcontainers).
Qed.

Lemma version2_1_falls_through (api : version2_1) (requestType : string)
    (request : list string) (m : Manager) (r : Request) :
  requestType ≠ machineStatsAPI → requestType ≠ statsAPI →
  version2_1_HandleRequest api requestType request m r
  = version2_0_HandleRequest (baseVersion2_1 api) requestType request m r.
Proof.
  intros Hmachine Hstats.
  unfold version2_1_HandleRequest.
  rewrite (eqb_ne _ _ Hmachine), (eqb_ne _ _ Hstats).
  unfold version2_0_HandleRequest.
  by destruct (GetRequestOptions r) as [opt [e|]].
Qed.

Lemma version2_0_unknown (api : version2_0) (requestType : string)
    (request : list string) (m : Manager) (r : Request) (world : World) :
  requestType ≠ statsAPI →
  (GetRequestOptions r).2 = None →
  version2_0_HandleRequest api requestType request m r world
  = (Some (Errorf "unknown request type %q" [ArgString requestType]), world).
Proof.
  intros Hne Hopt. unfold version2_0_HandleRequest.
  destruct (GetRequestOptions r) as [opt err]. simpl in Hopt. subst err.
  by rewrite (eqb_ne _ _ Hne).
Qed.

(** C6 (as the code has it). In the chain that ends in v1.0, a request
    whose type is not the one a revision introduces is handed to the
    predecessor as it came, with the same type, path segments, manager,
    request and writer; a type no revision of that chain lists ends at v1.0,
    which answers with an unknown-request-type error and touches nothing.
    v2.1 hands to v2.0 every type other than [machinestats], which it
    introduces, and [stats], which it serves itself; a type that v2.1 does not
    list ends, once the options have parsed, in v2.0's unknown-request-type
    error. *)
Theorem HandleRequest_delegates (v1_3 : version1_3) (v2_1 : version2_1)
    (requestType : string) (request : list string) (m : Manager) (r : Request) :
  let v1_2 := baseVersion1_3 v1_3 in
  let v1_1 := baseVersion1_2 v1_2 in
  let v1_0 := baseVersion1_1 v1_1 in
  let v2_0 := baseVersion2_1 v2_1 in
  let unknown := Some (Errorf "unknown request type %q" [ArgString requestType]) in
  (requestType ≠ eventsAPI →
   version1_3_HandleRequest v1_3 requestType request m r
   = version1_2_HandleRequest v1_2 requestType request m r) ∧
  (requestType ≠ dockerAPI →
   version1_2_HandleRequest v1_2 requestType request m r
   = version1_1_HandleRequest v1_1 requestType request m r) ∧
  (requestType ≠ subcontainersAPI →
   version1_1_HandleRequest v1_1 requestType request m r
   = version1_0_HandleRequest v1_0 requestType request m r) ∧
  (requestType ∉ version1_3_SupportedRequestTypes v1_3 →
   version1_3_HandleRequest v1_3 requestType request m r
   = version1_0_HandleRequest v1_0 requestType request m r ∧
   ∀ world : World,
     version1_0_HandleRequest v1_0 requestType request m r world = (unknown, world)) ∧
  (requestType ≠ machineStatsAPI → requestType ≠ statsAPI →
   version2_1_HandleRequest v2_1 requestType request m r
   = version2_0_HandleRequest v2_0 requestType request m r) ∧
  (requestType ∉ version2_1_SupportedRequestTypes v2_1 →
   (GetRequestOptions r).2 = None →
   ∀ world : World,
     version2_1_HandleRequest v2_1 requestType request m r world = (unknown, world)).
Proof.
  intros v1_2 v1_1 v1_0 v2_0 unknown.
  split; [apply version1_3_falls_through|].
  split; [apply version1_2_falls_through|].
  split; [apply version1_1_falls_through|].
  split; [|split].
  - intros Hnew. rewrite supported_v1_3 in Hnew.
    rewrite version1_3_falls_through, version1_2_falls_through,
      version1_1_falls_through by tauto.
    split; [reflexivity|]. intros world. apply version1_0_unknown; tauto.
  - apply version2_1_falls_through.
  - intros Hnew Hopt world.
    unfold version2_1_SupportedRequestTypes, version2_0_SupportedRequestTypes in Hnew.
    simpl in Hnew. rewrite !not_elem_of_cons in Hnew.
    rewrite version2_1_falls_through by tauto.
    apply version2_0_unknown; [tauto|done].
Qed.

(** C7. A request type introduced at a revision of the v1 chain, that is,
    listed by it and not by its predecessor, is served by every later revision
    of the chain by the very handler of the revision that introduced it:
    the same output and the same error, whatever the arguments and the state
    of the writer. *)
Theorem HandleRequest_transparent (v1_3 : version1_3) (requestType : string)
    (request : list string) (m : Manager) (r : Request) :
  let v1_2 := baseVersion1_3 v1_3 in
  let v1_1 := baseVersion1_2 v1_2 in
  let v1_0 := baseVersion1_1 v1_1 in
  (requestType ∈ version1_0_SupportedRequestTypes v1_0 →
   version1_1_HandleRequest v1_1 requestType request m r
   = version1_0_HandleRequest v1_0 requestType request m r ∧
   version1_2_HandleRequest v1_2 requestType request m r
   = version1_0_HandleRequest v1_0 requestType request m r ∧
   version1_3_HandleRequest v1_3 requestType request m r
   = version1_0_HandleRequest v1_0 requestType request m r) ∧
  (requestType ∈ version1_1_SupportedRequestTypes v1_1 →
   requestType ∉ version1_0_SupportedRequestTypes v1_0 →
   version1_2_HandleRequest v1_2 requestType request m r
   = version1_1_HandleRequest v1_1 requestType request m r ∧
   version1_3_HandleRequest v1_3 requestType request m r
   = version1_1_HandleRequest v1_1 requestType request m r) ∧
  (requestType ∈ version1_2_SupportedRequestTypes v1_2 →
   requestType ∉ version1_1_SupportedRequestTypes v1_1 →
   version1_3_HandleRequest v1_3 requestType request m r
   = version1_2_HandleRequest v1_2 requestType request m r).
Proof.
  intros v1_2 v1_1 v1_0.
  unfold version1_2_SupportedRequestTypes, version1_1_SupportedRequestTypes,
    version1_0_SupportedRequestTypes. simpl.
  rewrite !elem_of_cons, !elem_of_nil.
  split; [|split].
  - intros [->|[->|[]]]; repeat split; reflexivity.
  - intros [->|[->|[->|[]]]] Hold; try (exfalso; tauto);
      repeat split; reflexivity.
  - intros [->|[->|[->|[->|[]]]]] Hold; try (exfalso; tauto); reflexivity.
Qed.

(** ** API v2.0 and v2.1 *)

(** C1 (what the code does). Of the ten request types v2.0 lists as
    supported, its [HandleRequest] serves [stats] alone: for each of the other
    nine, once the request options have parsed, it answers with an
    unknown-request-type error and touches neither writer nor Manager. *)
Theorem version2_0_rejects_listed_types (api : version2_0) (requestType : string)
    (request : list string) (m : Manager) (r : Request) (world : World) :
  requestType ∈ version2_0_SupportedRequestTypes api →
  requestType ≠ statsAPI →
  (GetRequestOptions r).2 = None →
  version2_0_HandleRequest api requestType request m r world
  = (Some (Errorf "unknown request type %q" [ArgString requestType]), world).
Proof. intros _. apply version2_0_unknown. Qed.

Lemma write_through (res : Payload) (world : World) :
  (err ← write res; if err is Some e then mret (Some e) else mret None) world
  = write res world.
Proof.
  unfold mbind, Handler_bind, write, mret, Handler_ret.
  destruct (writeResult res (w world)) as [w' [e|]]; reflexivity.
Qed.

(** C8 (as the code has it). When [GetRequestedContainersInfo] fails on a
    stats request whose options parsed, v2.0 and v2.1 return the Manager's
    error as it is if no container came with it; if containers came with it,
    the error goes to the log and the handler goes on to write them, its
    result being that of the write. *)
Theorem stats_manager_error (v2_1 : version2_1) (request : list string)
    (m : Manager) (r : Request) (world : World) (opt : RequestOptions)
    (infos : gmap string ContainerInfo) (e : error) :
  GetRequestOptions r = (opt, None) →
  GetRequestedContainersInfo m (getContainerName request) opt = (infos, Some e) →
  let v2_0 := baseVersion2_1 v2_1 in
  let world1 :=
    asked (CallGetRequestedContainersInfo (getContainerName request) opt) world in
  let world2 :=
    logged (Errorf "Error calling GetRequestedContainersInfo: %v" [ArgError e]) world1 in
  (size infos = 0 →
   version2_0_HandleRequest v2_0 statsAPI request m r world = (Some e, world1) ∧
   version2_1_HandleRequest v2_1 statsAPI request m r world = (Some e, world1)) ∧
  (size infos ≠ 0 →
   version2_0_HandleRequest v2_0 statsAPI request m r world
   = write (OfDeprecatedStats
              (map_fold (λ name cinfo contStats,
                           <[name := DeprecatedStatsFromV1 cinfo]> contStats)
                        ∅ infos)) world2 ∧
   version2_1_HandleRequest v2_1 statsAPI request m r world
   = write (OfV2ContainerInfos (map_fold statsLoopBody ∅ infos)) world2).
Proof.
  intros Hopt Hm v2_0 world1 world2.
  unfold version2_0_HandleRequest, version2_1_HandleRequest,
    version2_0_handleStatsAPI.
  rewrite Hopt. simpl.
  unfold mbind, Handler_bind, call. rewrite Hm.
  split; intros Hsize.
  - rewrite Hsize. simpl. done.
  - destruct (size infos) as [|n] eqn:Hn; [done|]. simpl. done.
Qed.

Lemma statsLoop_lookup (conts : gmap string ContainerInfo) (name : string) :
  map_fold statsLoopBody ∅ conts !! name
  = if String.eqb name "/" then None else converted name <$> conts !! name.
Proof.
  revert name.
  apply (map_fold_weak_ind
           (λ (contStats : gmap string V2ContainerInfo)
              (conts : gmap string ContainerInfo),
              ∀ name, contStats !! name
                      = if String.eqb name "/" then None
                        else converted name <$> conts !! name)).
  - intros name. rewrite !lookup_empty. by destruct (String.eqb name "/").
  - intros key cont seen contStats Hfresh IH name.
    unfold statsLoopBody.
    destruct (String.eqb_spec key "/") as [Hroot|Hroot].
    + rewrite IH. destruct (String.eqb_spec name "/") as [|Hname]; [done|].
      rewrite lookup_insert_ne by congruence. done.
    + destruct (decide (key = name)) as [<-|Hother].
      * rewrite !lookup_insert_eq.
        destruct (String.eqb_spec key "/"); done.
      * rewrite !lookup_insert_ne by done. apply IH.
Qed.

(** C9. Whenever the v2.1 stats handler gets as far as writing, with
    containers [conts] from the Manager, what it writes is a map without the
    key ["/"] in which every other container of [conts], and nothing else,
    appears converted under its name. *)
Theorem stats_v2_1_skips_root (api : version2_1) (request : list string)
    (m : Manager) (r : Request) (world : World) (opt : RequestOptions)
    (conts : gmap string ContainerInfo) (err : option error) :
  GetRequestOptions r = (opt, None) →
  GetRequestedContainersInfo m (getContainerName request) opt = (conts, err) →
  err = None ∨ size conts ≠ 0 →
  ∃ (contStats : gmap string V2ContainerInfo) (world' : World),
    version2_1_HandleRequest api statsAPI request m r world
    = write (OfV2ContainerInfos contStats) world' ∧
    contStats !! "/" = None ∧
    ∀ name, name ≠ "/" → contStats !! name = converted name <$> conts !! name.
Proof.
  intros Hopt Hm Hgo.
  exists (map_fold statsLoopBody ∅ conts).
  unfold version2_1_HandleRequest. rewrite Hopt. simpl.
  unfold mbind, Handler_bind, call. rewrite Hm.
  assert (∀ name, name ≠ "/" →
            map_fold statsLoopBody ∅ conts !! name = converted name <$> conts !! name)
    as Hothers.
  { intros name Hname. rewrite statsLoop_lookup. by rewrite (eqb_ne _ _ Hname). }
  destruct err as [e|].
  - destruct Hgo as [|Hsize]; [done|].
    destruct (size conts) as [|n]; [done|]. simpl.
    eexists. split; [reflexivity|]. split; [|done].
    by rewrite statsLoop_lookup.
  - eexists. split; [reflexivity|]. split; [|done].
    by rewrite statsLoop_lookup.
Qed.

(** ** The docker request of v1.2 *)

(** C10 (as the code has it). A [docker] request on v1.2 first decodes the
    body: if that fails, the failure is the answer, whatever the path. If it
    gives [query]: the path ["docker/"], one empty segment, is served as the
    empty path and writes all Docker containers the Manager returns; a path of
    one non-empty segment writes the container the Manager returns for it, as
    a map of one entry under the container's name; a path of two or more
    segments is answered with an unknown-request error. A path of two or more
    segments never reaches the Manager. *)
Theorem docker_request_paths (api : version1_2) (m : Manager) (r : Request)
    (world : World) :
  let run request := version1_2_HandleRequest api dockerAPI request m r world in
  (∀ query e request,
     getContainerInfoRequest (Body r) = (query, Some e) →
     run request = (Some e, world)) ∧
  (∀ request, 2 ≤ length request → managerCalls (run request).2 = managerCalls world) ∧
  (∀ query,
     getContainerInfoRequest (Body r) = (query, None) →
     run [""] = run [] ∧
     (∀ containers, AllDockerContainers m query = (containers, None) →
        run [""] = write (OfContainerMap containers)
                         (asked (CallAllDockerContainers query) world)) ∧
     (∀ segment cont,
        segment ≠ "" → DockerContainer m segment query = (cont, None) →
        run [segment] = write (OfContainerMap {[ Name cont := cont ]})
                              (asked (CallDockerContainer segment query) world)) ∧
     (∀ request, 2 ≤ length request →
        run request
        = (Some (Errorf "unknown request for Docker container %v" [ArgStrings request]),
           world))).
Proof.
  intros run. subst run. unfold version1_2_HandleRequest. simpl.
  split; [|split].
  - intros query e request Hbody. by rewrite Hbody.
  - intros request Hlen.
    destruct (getContainerInfoRequest (Body r)) as [query [e|]]; [reflexivity|].
    destruct request as [|s1 [|s2 request]]; simpl in Hlen; try lia.
    reflexivity.
  - intros query Hbody. rewrite Hbody. repeat split.
    + intros containers Hall. simpl.
      unfold mbind at 1. unfold Handler_bind, call. rewrite Hall.
      apply write_through.
    + intros segment cont Hseg Hone. simpl.
      destruct segment as [|c segment]; [done|]. simpl.
      unfold mbind at 1. unfold Handler_bind, call. rewrite Hone.
      apply write_through.
    + intros request Hlen.
      destruct request as [|s1 [|s2 request]]; simpl in Hlen; try lia.
      reflexivity.
Qed.

(** ** Further properties of the handlers *)

(** X1. A request whose options do not parse is answered by v2.0 and by
    v2.1 with the parse error, for every request type, before the writer or
    the Manager is touched. *)
Theorem option_errors_come_first (api : version2_1) (requestType : string)
    (request : list string) (m : Manager) (r : Request) (world : World)
    (opt : RequestOptions) (e : error) :
  GetRequestOptions r = (opt, Some e) →
  version2_0_HandleRequest (baseVersion2_1 api) requestType request m r world
  = (Some e, world) ∧
  version2_1_HandleRequest api requestType request m r world = (Some e, world).
Proof.
  intros Hopt. unfold version2_1_HandleRequest, version2_0_HandleRequest.
  by rewrite Hopt.
Qed.


Lemma statsFold_lookup (infos : gmap string ContainerInfo) (name : string) :
  map_fold (λ name cinfo (contStats : gmap string (list DeprecatedContainerStats)),
              <[name := DeprecatedStatsFromV1 cinfo]> contStats) ∅ infos !! name
  = DeprecatedStatsFromV1 <$> infos !! name.
Proof.
  revert name.
  apply (map_fold_weak_ind
           (λ (contStats : gmap string (list DeprecatedContainerStats))
              (infos : gmap string ContainerInfo),
              ∀ name, contStats !! name = DeprecatedStatsFromV1 <$> infos !! name)).
  - intros name. by rewrite !lookup_empty.
  - intros key cinfo seen contStats Hfresh IH name.
    destruct (decide (key = name)) as [<-|Hother].
    + by rewrite !lookup_insert_eq.
    + rewrite !lookup_insert_ne by done. apply IH.
Qed.

(** X3. The v2.0 stats handler skips nothing: when the options parse and
    the Manager answers without error, it writes one entry for every
    container of the Manager's answer, the root cgroup included. *)
Theorem stats_v2_0_keeps_every_container (api : version2_0) (request : list string)
    (m : Manager) (r : Request) (world : World) (opt : RequestOptions)
    (infos : gmap string ContainerInfo) :
  GetRequestOptions r = (opt, None) →
  GetRequestedContainersInfo m (getContainerName request) opt = (infos, None) →
  ∃ contStats : gmap string (list DeprecatedContainerStats),
    version2_0_HandleRequest api statsAPI request m r world
    = write (OfDeprecatedStats contStats)
            (asked (CallGetRequestedContainersInfo (getContainerName request) opt) world) ∧
    ∀ name, contStats !! name = DeprecatedStatsFromV1 <$> infos !! name.
Proof.
  intros Hopt Hm. eexists. split.
  - unfold version2_0_HandleRequest, version2_0_handleStatsAPI.
    rewrite Hopt. simpl. unfold mbind, Handler_bind, call. rewrite Hm. reflexivity.
  - apply statsFold_lookup.
Qed.

(** X4. The machinestats request of v2.1 asks the Manager for the
    container ["/"], whatever the path of the request, and, when the Manager
    answers without error, writes the machine stats made of the entry under
    ["/"]. *)
Theorem machinestats_reads_the_root (api : version2_1) (request : list string)
    (m : Manager) (r : Request) (world : World) (opt : RequestOptions)
    (cont : gmap string ContainerInfo) :
  GetRequestOptions r = (opt, None) →
  GetRequestedContainersInfo m "/" opt = (cont, None) →
  version2_1_HandleRequest api machineStatsAPI request m r world
  = write (OfMachineStats (MachineStatsFromV1 (cont !! "/")))
          (asked (CallGetRequestedContainersInfo "/" opt) world).
Proof.
  intros Hopt Hm. unfold version2_1_HandleRequest.
  rewrite Hopt. simpl. unfold mbind, Handler_bind, call. by rewrite Hm.
Qed.

End Properties.

(** ** The properties at work on the test doubles *)

Import Doubles.
#[local] Existing Instance infoTypes.
#[local] Existing Instance helpers.

(** The examples of section 8 of the specification. *)
Example count_minus_one_accepted :
  GetRequestOptions (requestWith [("count", "-1")])
  = ({| IdType := "name"; Count := -1; Recursive := false; MaxAge := None |}, None).
Proof. vm_compute. reflexivity. Qed.

Example count_minus_two_rejected :
  (GetRequestOptions (requestWith [("count", "-2")])).2
  = Some (Errorf "invalid 'count' option: only -1 and larger values allowed, not %d"
                 [ArgInt (-2)]).
Proof. vm_compute. reflexivity. Qed.

Example type_bogus_rejected :
  (GetRequestOptions (requestWith [("type", "bogus")])).2
  = Some (Errorf "unknown 'type' %q" [ArgString "bogus"]).
Proof. vm_compute. reflexivity. Qed.

Example recursive_needs_the_literal :
  Recursive (GetRequestOptions (requestWith [("recursive", "true")])).1 = true ∧
  Recursive (GetRequestOptions (requestWith [("recursive", "True")])).1 = false ∧
  Recursive (GetRequestOptions (requestWith [("recursive", "1")])).1 = false ∧
  MaxAge (GetRequestOptions (requestWith [("recursive", "true")])).1 = None.
Proof. vm_compute. done. Qed.

(** C4 at a request with [count=-1] and [max_age=5s]. *)
Lemma GetRequestOptions_on_doubles :
  let opt := (GetRequestOptions (requestWith [("count", "-1"); ("max_age", "5s")])).1 in
  IdType opt = "name" ∧ Count opt = (-1)%Z ∧ MaxAge opt = Some 5000000000%Z.
Proof.
  destruct (@GetRequestOptions_spec infoTypes helpers
              (requestWith [("count", "-1"); ("max_age", "5s")]))
    as (_ & _ & _ & _ & Hok & _).
  destruct Hok as (Hty & _ & Hco & _ & _ & Hma); [vm_compute; reflexivity|].
  cbv zeta. rewrite Hty, Hco, Hma. vm_compute. done.
Defined.

(** C6 at a request type that no revision of the v1 chain lists. *)
Lemma unknown_type_ends_at_v1_0 :
  version1_3_HandleRequest v1_3 "bogus" ["web"] steadyManager plainRequest emptyWorld
  = (Some (Errorf "unknown request type %q" [ArgString "bogus"]), emptyWorld).
Proof.
  destruct (@HandleRequest_delegates infoTypes helpers v1_3 v2_1 "bogus" ["web"]
              steadyManager plainRequest)
    as (_ & _ & _ & Hunknown & _).
  destruct Hunknown as [Hsame Hv1_0]; [not_listed|].
  rewrite Hsame. apply Hv1_0.
Defined.

(** C6 fails at v2.1 and [stats]: v2.0 lists [stats], so v2.1 does not
    introduce it, and still v2.1 does not hand the request to v2.0: on the
    same request the two write different things. *)
Lemma version2_1_serves_stats_itself :
  statsAPI ∈ version2_0_SupportedRequestTypes (baseVersion2_1 v2_1) ∧
  w (version2_1_HandleRequest v2_1 statsAPI [] steadyManager plainRequest emptyWorld).2
  = [OfV2ContainerInfos {[ "/web" := {| V2Spec := "web"; V2Stats := [3] |} ]}] ∧
  w (version2_0_HandleRequest v2_0 statsAPI [] steadyManager plainRequest emptyWorld).2
  = [OfDeprecatedStats (<["/web" := [3]]> {[ "/" := [1; 2] ]})].
Proof.
  split; [|split].
  - unfold version2_0_SupportedRequestTypes. do 5 right. left.
  - vm_compute. reflexivity.
  - vm_compute. reflexivity.
Qed.

(** C7 at [containers], introduced by v1.0 and asked of v1.3. *)
Lemma containers_same_on_v1_3 :
  version1_3_HandleRequest v1_3 containersAPI ["web"] steadyManager plainRequest
  = version1_0_HandleRequest v1_0 containersAPI ["web"] steadyManager plainRequest.
Proof.
  destruct (@HandleRequest_transparent infoTypes helpers v1_3 containersAPI ["web"] steadyManager
              plainRequest) as (Hv1_0 & _).
  destruct Hv1_0 as (_ & _ & Hsame); [left|]. exact Hsame.
Defined.

(** C1 at [version], the first type v2.0 lists. *)
Lemma version2_0_rejects_version :
  version2_0_HandleRequest v2_0 versionAPI [] steadyManager plainRequest emptyWorld
  = (Some (Errorf "unknown request type %q" [ArgString "version"]), emptyWorld).
Proof.
  apply (@version2_0_rejects_listed_types infoTypes helpers v2_0 versionAPI []
           steadyManager plainRequest emptyWorld).
  - left.
  - discriminate.
  - vm_compute. reflexivity.
Defined.

(** C8 fails when containers come with the error: the Manager answers a
    stats request with [upstream] next to two containers, and both v2.0 and
    v2.1 return nil, the error having gone to the log. *)
Lemma stats_error_swallowed :
  GetRequestOptions plainRequest = (defaultOptions, None) ∧
  GetRequestedContainersInfo (failingManager someContainers)
    (getContainerName ["web"]) defaultOptions
  = (someContainers, Some upstream) ∧
  (version2_0_HandleRequest v2_0 statsAPI ["web"] (failingManager someContainers)
     plainRequest emptyWorld).1 = None ∧
  (version2_1_HandleRequest v2_1 statsAPI ["web"] (failingManager someContainers)
     plainRequest emptyWorld).1 = None ∧
  klogErrors (version2_1_HandleRequest v2_1 statsAPI ["web"]
                (failingManager someContainers) plainRequest emptyWorld).2
  = [Errorf "Error calling GetRequestedContainersInfo: %v" [ArgError upstream]].
Proof. repeat split; vm_compute; reflexivity. Qed.

(** C8 as amended, at a Manager that fails with no container. *)
Lemma stats_manager_error_on_doubles :
  version2_0_HandleRequest v2_0 statsAPI ["web"] (failingManager ∅) plainRequest
    emptyWorld
  = (Some upstream,
     asked (CallGetRequestedContainersInfo "/web" defaultOptions) emptyWorld) ∧
  version2_1_HandleRequest v2_1 statsAPI ["web"] (failingManager ∅) plainRequest
    emptyWorld
  = (Some upstream,
     asked (CallGetRequestedContainersInfo "/web" defaultOptions) emptyWorld).
Proof.
  destruct (@stats_manager_error infoTypes helpers v2_1 ["web"] (failingManager ∅) plainRequest
              emptyWorld defaultOptions ∅ upstream) as [Hnone _].
  - vm_compute. reflexivity.
  - reflexivity.
  - apply Hnone. reflexivity.
Defined.

(** C9 at a Manager that returns the root cgroup and one container. *)
Lemma stats_v2_1_on_doubles :
  ∃ (contStats : gmap string V2ContainerInfo) (world' : World),
    version2_1_HandleRequest v2_1 statsAPI ["web"] steadyManager plainRequest emptyWorld
    = write (OfV2ContainerInfos contStats) world' ∧
    contStats !! "/" = None ∧
    ∀ name, name ≠ "/" →
            contStats !! name = converted name <$> someContainers !! name.
Proof.
  apply (@stats_v2_1_skips_root infoTypes helpers v2_1 ["web"] steadyManager plainRequest emptyWorld
           defaultOptions someContainers None).
  - vm_compute. reflexivity.
  - reflexivity.
  - by left.
Defined.

(** C10 fails at a body that does not decode: the answer to a path of two
    segments is then the decoding error, not an unknown-request error. *)
Lemma docker_broken_body :
  version1_2_HandleRequest v1_2 dockerAPI ["a"; "b"] steadyManager brokenBody emptyWorld
  = (Some (errorString "unable to decode the json value"), emptyWorld).
Proof. vm_compute. reflexivity. Qed.

(** C10 as amended, at a body that decodes and a path of two segments. *)
Lemma docker_long_path_on_doubles :
  version1_2_HandleRequest v1_2 dockerAPI ["a"; "b"] steadyManager plainRequest emptyWorld
  = (Some (Errorf "unknown request for Docker container %v" [ArgStrings ["a"; "b"]]),
     emptyWorld).
Proof.
  destruct (@docker_request_paths infoTypes helpers v1_2 steadyManager plainRequest emptyWorld)
    as (_ & _ & Hdecoded).
  destruct (Hdecoded 60) as (_ & _ & _ & Hlong); [reflexivity|].
  apply (Hlong ["a"; "b"]). simpl. lia.
Defined.

(** X1 at a request with [count=-2]. *)
Lemma option_errors_on_doubles :
  version2_1_HandleRequest v2_1 statsAPI ["web"] steadyManager
    (requestWith [("count", "-2")]) emptyWorld
  = (Some (Errorf "invalid 'count' option: only -1 and larger values allowed, not %d"
                  [ArgInt (-2)]),
     emptyWorld).
Proof.
  apply (@option_errors_come_first infoTypes helpers v2_1 statsAPI ["web"] steadyManager
           (requestWith [("count", "-2")]) emptyWorld defaultOptions).
  vm_compute. reflexivity.
Defined.


(** X3 at a Manager that returns the root cgroup and one container. *)
Lemma stats_v2_0_on_doubles :
  ∃ contStats : gmap string (list nat),
    version2_0_HandleRequest v2_0 statsAPI ["web"] steadyManager plainRequest emptyWorld
    = write (OfDeprecatedStats contStats)
            (asked (CallGetRequestedContainersInfo "/web" defaultOptions) emptyWorld) ∧
    ∀ name, contStats !! name = ciStats <$> someContainers !! name.
Proof.
  apply (@stats_v2_0_keeps_every_container infoTypes helpers v2_0 ["web"] steadyManager
           plainRequest emptyWorld defaultOptions someContainers).
  - vm_compute. reflexivity.
  - reflexivity.
Defined.

(** X4 at a Manager that returns the root cgroup and one container. *)
Lemma machinestats_on_doubles :
  version2_1_HandleRequest v2_1 machineStatsAPI ["web"] steadyManager plainRequest
    emptyWorld
  = (None, {| w := [OfMachineStats [1; 2]];
              managerCalls := [CallGetRequestedContainersInfo "/" defaultOptions];
              klogErrors := [] |}).
Proof.
  rewrite (@machinestats_reads_the_root infoTypes helpers v2_1 ["web"] steadyManager
             plainRequest emptyWorld defaultOptions someContainers).
  - vm_compute. reflexivity.
  - vm_compute. reflexivity.
  - reflexivity.
Defined.

End ApiProperties.

(** * Properties of the factory registry *)

Module RegistryProperties.
Import Container.

Section Properties.
Context {ContainerWatchSource : Type} `{Countable ContainerWatchSource}.
Context {ContainerHandler : Type}.

Abbreviation Factory := (ContainerHandlerFactory.t ContainerHandler).
Abbreviation Factories := (gmap ContainerWatchSource (list Factory)).

Implicit Types (factory : Factory) (factories : Factories).
Implicit Types (watchType : ContainerWatchSource) (name : string).

(** ** Registration *)

Lemma registered_insert watchType listed (l : list Factory) factories :
  registered watchType (<[listed := l]> factories)
  = if decide (listed = watchType) then l else registered watchType factories.
Proof. unfold registered. rewrite lookup_insert. by case_decide. Qed.

Lemma registered_Register factory watchTypes watchType factories :
  registered watchType (RegisterContainerHandlerFactory factory watchTypes factories)
  = registered watchType factories
    ++ replicate (occurrences watchType watchTypes) factory.
Proof.
  unfold RegisterContainerHandlerFactory, occurrences.
  revert factories.
  induction watchTypes as [|listed watchTypes IH]; intros factories; simpl.
  - by rewrite app_nil_r.
  - rewrite IH, registered_insert, filter_cons.
    case_decide as Hlisted; [subst listed|]; simpl.
    + by rewrite <- app_assoc.
    + reflexivity.
Qed.

Lemma registered_registerAll (calls : list (Factory * list ContainerWatchSource))
    watchType factories :
  Forall (λ c, occurrences watchType c.2 = 1) calls →
  registered watchType (registerAll calls factories)
  = registered watchType factories ++ calls.*1.
Proof.
  unfold registerAll. intros Honce. revert factories.
  induction Honce as [|[factory watchTypes] calls Hone _ IH]; intros factories; simpl.
  - by rewrite app_nil_r.
  - rewrite IH, registered_Register. simpl in Hone. rewrite Hone. simpl.
    by rewrite <- app_assoc.
Qed.

Lemma registered_Clear watchType factories :
  registered watchType (ClearContainerHandlerFactories factories) = [].
Proof. unfold registered, ClearContainerHandlerFactories. by rewrite lookup_empty. Qed.

(** ** Reordering *)

Lemma filter_others_of_raw (l : list Factory) :
  filter (λ factory, ¬ isRaw factory) (filter isRaw l) = [].
Proof.
  induction l as [|factory l IH]; [done|].
  rewrite (filter_cons isRaw).
  case_decide; [|done]. rewrite filter_cons. by case_decide.
Qed.

Lemma filter_twice (P : Factory → Prop) `{∀ x, Decision (P x)} (l : list Factory) :
  filter P (filter P l) = filter P l.
Proof.
  induction l as [|factory l IH]; [done|].
  rewrite (filter_cons P). case_decide; [|done].
  rewrite filter_cons. case_decide; [|done]. by rewrite IH.
Qed.

Lemma filter_all (P : Factory → Prop) `{∀ x, Decision (P x)} (l : list Factory) :
  Forall P l → filter P l = l.
Proof.
  induction 1 as [|factory l Hx _ IH]; [done|].
  rewrite filter_cons. case_decide; [|done]. by rewrite IH.
Qed.

Lemma filter_none (P : Factory → Prop) `{∀ x, Decision (P x)} (l : list Factory) :
  Forall (λ x, ¬ P x) l → filter P l = [].
Proof.
  induction 1 as [|factory l Hx _ IH]; [done|].
  rewrite filter_cons. by case_decide.
Qed.

(** C3. After any sequence of [Register] calls that each name the watch
    source once, made on a cleared registry, the reordered list for the
    source holds exactly the registered factories; the factories other than
    "raw" keep their registration order; a factory identified as "raw", if
    one was registered, is last; and without such a factory the list is the
    registration order itself. *)
Theorem GetReorderedFactoryList_spec
    (calls : list (Factory * list ContainerWatchSource)) watchType factories :
  Forall (λ c, occurrences watchType c.2 = 1) calls →
  let given := calls.*1 in
  let reordered :=
    GetReorderedFactoryList watchType
      (registerAll calls (ClearContainerHandlerFactories factories)) in
  reordered ≡ₚ given ∧
  length reordered = length given ∧
  filter (λ factory, ¬ isRaw factory) reordered
  = filter (λ factory, ¬ isRaw factory) given ∧
  (∀ factory, factory ∈ given → isRaw factory →
     ∃ final, last reordered = Some final ∧ isRaw final) ∧
  (∀ factory, filter isRaw given = [factory] → last reordered = Some factory) ∧
  (Forall (λ factory, ¬ isRaw factory) given → reordered = given).
Proof.
  intros Honce given reordered.
  assert (registered watchType
            (registerAll calls (ClearContainerHandlerFactories factories)) = given)
    as Hreg.
  { by rewrite registered_registerAll, registered_Clear. }
  assert (reordered
          = filter (λ factory, ¬ isRaw factory) given ++ filter isRaw given) as ->.
  { subst reordered. unfold GetReorderedFactoryList. by rewrite Hreg. }
  assert (filter (λ factory, ¬ isRaw factory) given ++ filter isRaw given ≡ₚ given)
    as Hperm.
  { rewrite Permutation_app_comm. apply filter_app_complement. }
  split; [exact Hperm|].
  split; [by rewrite Hperm|].
  split.
  { rewrite filter_app, filter_twice, filter_others_of_raw. apply app_nil_r. }
  split.
  { intros factory Hin Hraw.
    assert (factory ∈ filter isRaw given) as Hfiltered.
    { by apply list_elem_of_filter. }
    destruct (last (filter isRaw given)) as [final|] eqn:Hlast.
    - exists final. rewrite last_app, Hlast. split; [done|].
      apply last_Some in Hlast as [raws Hraws].
      assert (final ∈ filter isRaw given) as Hfinal.
      { rewrite Hraws. apply elem_of_app. right. by left. }
      by apply list_elem_of_filter in Hfinal as [? _].
    - apply last_None in Hlast. rewrite Hlast in Hfiltered.
      by apply elem_of_nil in Hfiltered. }
  split.
  { intros factory ->. apply last_snoc. }
  intros Hnone.
  rewrite (filter_none isRaw) by done.
  rewrite filter_all by done. apply app_nil_r.
Qed.

(** ** Dispatch *)

Lemma dispatch_declined name allowedEnvVars isHostNamespace
    (declined rest : list Factory) :
  Forall (declines name) declined →
  dispatch name allowedEnvVars isHostNamespace (declined ++ rest)
  = ((dispatch name allowedEnvVars isHostNamespace rest).1,
     ((λ factory, AskCanHandleAndAccept factory name) <$> declined)
     ++ (dispatch name allowedEnvVars isHostNamespace rest).2).
Proof.
  induction 1 as [|factory declined [canAccept Hno] _ IH]; simpl.
  - by destruct (dispatch _ _ _ rest).
  - unfold reports in Hno. rewrite Hno, IH. reflexivity.
Qed.

(** C2 (as the specification has it). Dispatch walks the reordered list
    past the factories that report [canHandle=false] and stops at the first
    that does not. If every factory reports [canHandle=false], the result is a
    nil handler and a not-found error naming the container. If the factory it
    stops at reports [canHandle=true] and [canAccept=false], the result is no
    handler, [accepted=false] and no error, and no factory was asked to
    construct a handler; if it reports [canAccept=true], that factory, and it
    alone, is asked to construct. If its [CanHandleAndAccept] returns an
    error, dispatch ends there with that error and no later factory is
    asked. *)
Theorem NewContainerHandler_spec name watchType (allowedEnvVars : list string)
    (isHostNamespace : bool) factories :
  let reordered := GetReorderedFactoryList watchType factories in
  let ask := λ factory, AskCanHandleAndAccept factory name in
  let construct :=
    λ factory, AskNewContainerHandler factory name allowedEnvVars isHostNamespace in
  let result :=
    NewContainerHandler name watchType allowedEnvVars isHostNamespace factories in
  (Forall (declines name) reordered →
   result = ((None, false, Some (NoHandlerFound name)), ask <$> reordered)) ∧
  (∀ earlier selected later,
     reordered = earlier ++ selected :: later →
     Forall (declines name) earlier →
     (reports selected name true false →
      result = ((None, false, None), (ask <$> earlier) ++ [ask selected]) ∧
      ∀ factory, construct factory ∉ result.2) ∧
     (reports selected name true true →
      result.2 = (ask <$> earlier) ++ [ask selected; construct selected] ∧
      result.1.1.1
      = (ContainerHandlerFactory.NewContainerHandler
           selected name allowedEnvVars isHostNamespace).1 ∧
      result.1.2
      = HandlerConstructionFailed name (ContainerHandlerFactory.String selected)
        <$> (ContainerHandlerFactory.NewContainerHandler
               selected name allowedEnvVars isHostNamespace).2) ∧
     (∀ canHandle canAccept err,
        ContainerHandlerFactory.CanHandleAndAccept selected name
        = (canHandle, canAccept, Some err) →
        result = ((None, false, Some (CanHandleAndAcceptFailed err)),
                  (ask <$> earlier) ++ [ask selected]))).
Proof.
  intros reordered ask construct result.
  subst result. unfold NewContainerHandler. fold reordered. split.
  - intros Hnone.
    rewrite <- (app_nil_r reordered) at 1.
    rewrite dispatch_declined by done. simpl. by rewrite app_nil_r.
  - intros earlier selected later -> Hearlier.
    rewrite dispatch_declined by done. simpl.
    split; [|split].
    + intros Hrefuse. unfold reports in Hrefuse. rewrite Hrefuse. simpl.
      split; [done|].
      intros factory Hin. apply elem_of_app in Hin as [Hin|Hin].
      * apply list_elem_of_fmap in Hin as (other & Heq & _). discriminate Heq.
      * apply list_elem_of_singleton in Hin. discriminate Hin.
    + intros Haccept. unfold reports in Haccept. rewrite Haccept.
      destruct (ContainerHandlerFactory.NewContainerHandler selected name _ _)
        as [handler [err|]]; simpl; done.
    + intros canHandle canAccept err Hfails. rewrite Hfails.
      by destruct canHandle, canAccept.
Qed.

End Properties.

(** ** The properties at work on the mocks of the test file *)

Import Doubles.

(** [TestNewContainerHandler_FirstMatches] *)
Example FirstMatches :
  (NewContainerHandler testContainerName Raw testMetadataEnvAllowList true
     (registerAll [(allwaysYes, [Raw])] (ClearContainerHandlerFactories noFactories))).1
  = (Some mockContainer, true, None).
Proof. vm_compute. reflexivity. Qed.

(** [TestNewContainerHandler_SecondMatches] *)
Example SecondMatches :
  (NewContainerHandler testContainerName Raw testMetadataEnvAllowList true
     (registerAll [(allwaysNo, [Raw]); (allwaysYes, [Raw])]
                  (ClearContainerHandlerFactories noFactories))).1
  = (Some mockContainer, true, None).
Proof. vm_compute. reflexivity. Qed.

(** [TestNewContainerHandler_NoneMatch] *)
Example NoneMatch :
  (NewContainerHandler testContainerName Raw testMetadataEnvAllowList true
     (registerAll [(allwaysNo, [Raw]); (allwaysNo, [Raw])]
                  (ClearContainerHandlerFactories noFactories))).1
  = (None, false, Some (NoHandlerFound "/test")).
Proof. vm_compute. reflexivity. Qed.

(** Section 8: of [no, no, yes₁, yes₂] dispatch selects [yes₁] and never
    asks [yes₂]. *)
Example first_yes_wins :
  let yes2 :=
    mockFactory {| mockName := "yes2"; CanHandleValue := true; CanAcceptValue := true;
                   mockReturn := (Some "other", None) |} in
  NewContainerHandler testContainerName Raw testMetadataEnvAllowList true
    (registerAll [(allwaysNo, [Raw]); (allwaysNo, [Raw]); (allwaysYes, [Raw]);
                  (yes2, [Raw])] noFactories)
  = ((Some mockContainer, true, None),
     [ask allwaysNo; ask allwaysNo; ask allwaysYes;
      AskNewContainerHandler allwaysYes testContainerName testMetadataEnvAllowList true]).
Proof. vm_compute. reflexivity. Qed.

(** Section 8: [Clear()] then [Register(F)] then dispatch observes only [F]. *)
Example clear_then_register :
  GetReorderedFactoryList Raw
    (RegisterContainerHandlerFactory allwaysYes [Raw]
       (ClearContainerHandlerFactories
          (registerAll [(allwaysNo, [Raw]); (cannotAccept, [Raw])] noFactories)))
  = [allwaysYes].
Proof. vm_compute. reflexivity. Qed.

(** Section 8: with a factory "raw" that handles everything and a factory
    that handles the Docker names only, a name outside Docker's is still
    served, by "raw", which is asked last. *)
Example raw_is_the_fallback :
  NewContainerHandler testContainerName Raw testMetadataEnvAllowList true
    (registerAll [(rawAll, [Raw]); (dockerOnly, [Raw])] noFactories)
  = ((Some "raw handler", true, None),
     [ask dockerOnly; ask rawAll;
      AskNewContainerHandler rawAll testContainerName testMetadataEnvAllowList true]).
Proof. vm_compute. reflexivity. Qed.

(** C3 at the registrations of [TestRawContainerHandler_Last]. *)
Lemma RawContainerHandler_Last :
  last (GetReorderedFactoryList Raw
          (registerAll [(named "raw", [Raw]); (named "crio", [Raw]);
                        (named "containerd", [Raw])]
                       (ClearContainerHandlerFactories noFactories)))
  = Some (named "raw").
Proof.
  destruct (GetReorderedFactoryList_spec
              [(named "raw", [Raw]); (named "crio", [Raw]); (named "containerd", [Raw])]
              Raw noFactories) as (_ & _ & _ & _ & Hlast & _).
  - repeat constructor.
  - apply Hlast. reflexivity.
Defined.

(** C2 fails at a factory whose [CanHandleAndAccept] returns an error: the
    first factory of the list to report [canHandle=true] is [allwaysYes], and
    dispatch does not select it; nor is its error a not-found error. *)
Lemma dispatch_aborts_on_error :
  GetReorderedFactoryList Raw
    (registerAll [(broken, [Raw]); (allwaysYes, [Raw])] noFactories)
  = [broken; allwaysYes] ∧
  ContainerHandlerFactory.CanHandleAndAccept allwaysYes testContainerName
  = (true, true, None) ∧
  NewContainerHandler testContainerName Raw testMetadataEnvAllowList true
    (registerAll [(broken, [Raw]); (allwaysYes, [Raw])] noFactories)
  = ((None, false, Some (CanHandleAndAcceptFailed (errorString "cannot inspect"))),
     [ask broken]).
Proof. repeat split; vm_compute; reflexivity. Qed.

(** C2 as amended, at the registrations of [TestNewContainerHandler_Accept]. *)
Lemma NewContainerHandler_Accept :
  NewContainerHandler testContainerName Raw testMetadataEnvAllowList true
    (registerAll [(allwaysNo, [Raw]); (cannotAccept, [Raw])]
                 (ClearContainerHandlerFactories noFactories))
  = ((None, false, None), [ask allwaysNo; ask cannotAccept]).
Proof.
  destruct (NewContainerHandler_spec testContainerName Raw testMetadataEnvAllowList true
              (registerAll [(allwaysNo, [Raw]); (cannotAccept, [Raw])]
                           (ClearContainerHandlerFactories noFactories)))
    as [_ Hstop].
  destruct (Hstop [allwaysNo] cannotAccept []) as (Hrefuse & _).
  - vm_compute. reflexivity.
  - repeat constructor. exists true. reflexivity.
  - apply Hrefuse. reflexivity.
Defined.

End RegistryProperties.
